(** * ProjectPathResolver: registry of project namespaces and longest-prefix
      resolution of qualified names.

    Shallow embedding of [codebase_rag/project_path_resolver.py] and of
    [extract_tool_names] of [codebase_rag/prompts.py].

    - A Python [str] is a [string]; one [ascii] stands for one character.
    - [self._mappings] is a Python [dict]: keys are unique and iteration
      follows insertion order.  It is an association list, with the
      [dict] operations written out ([PyDict]).
    - Raising is a value of [exn] on the left of a sum.
    - Logging calls have no effect on results and are left out. *)

From Stdlib Require Import String Ascii List Arith Bool Lia Permutation Sorted.
Import ListNotations.
Local Open Scope list_scope.
Local Open Scope string_scope.

(* ------------------------------------------------------------------ *)
(** ** Python [str] operations used by the resolver *)

Module PyStr.

(** [s.startswith(p)] *)
Definition startswith (s p : string) : bool := String.prefix p s.

(** [s.split(sep)] for a one-character separator: the pieces between the
    occurrences of [sep]; never the empty list. *)
Fixpoint split (sep : ascii) (s : string) : list string :=
  match s with
  | EmptyString => [EmptyString]
  | String c r =>
      if Ascii.eqb c sep then EmptyString :: split sep r
      else match split sep r with
           | h :: t => String c h :: t
           | [] => [String c EmptyString]
           end
  end.

(** [sep.join(l)] *)
Definition join (sep : string) (l : list string) : string := String.concat sep l.

(** One step of a stable insertion in descending order of [len]: [x] goes
    in front of the first element that is not longer than it. *)
Fixpoint insert_by_len (x : string) (l : list string) : list string :=
  match l with
  | [] => [x]
  | y :: r =>
      if Nat.leb (String.length y) (String.length x) then x :: y :: r
      else y :: insert_by_len x r
  end.

(** [sorted(l, key=len, reverse=True)]: descending by length, elements of
    equal length in their original order. *)
Fixpoint sorted_by_len_desc (l : list string) : list string :=
  match l with
  | [] => []
  | x :: r => insert_by_len x (sorted_by_len_desc r)
  end.

End PyStr.

(* ------------------------------------------------------------------ *)
(** ** Python [dict] with [str] keys, in insertion order *)

Module PyDict.
Section Dict.
Context {V : Type}.

Definition t := list (string * V).

(** [d.get(k)] *)
Fixpoint get (d : list (string * V)) (k : string) : option V :=
  match d with
  | [] => None
  | (k', v) :: r => if String.eqb k' k then Some v else get r k
  end.

(** [d.get(k, default)] *)
Definition get_default (d : list (string * V)) (k : string) (default : V) : V :=
  match get d k with Some v => v | None => default end.

(** [k in d] *)
Definition contains (d : list (string * V)) (k : string) : bool :=
  match get d k with Some _ => true | None => false end.

(** [d[k] = v]: an existing key keeps its place, a new one goes last. *)
Fixpoint set (d : list (string * V)) (k : string) (v : V) : list (string * V) :=
  match d with
  | [] => [(k, v)]
  | (k', v') :: r =>
      if String.eqb k' k then (k', v) :: r else (k', v') :: set r k v
  end.

(** [del d[k]] (the caller has checked [k in d]) *)
Fixpoint del (d : list (string * V)) (k : string) : list (string * V) :=
  match d with
  | [] => []
  | (k', v') :: r => if String.eqb k' k then r else (k', v') :: del r k
  end.

(** [d.keys()] *)
Definition keys (d : list (string * V)) : list string := map fst d.

(** [bool(d)]: a dict is truthy when it is not empty. *)
Definition truthy (d : list (string * V)) : bool :=
  match d with [] => false | _ :: _ => true end.

(** What every Python dict satisfies: no key twice. *)
Definition wf (d : list (string * V)) : Prop := NoDup (keys d).
End Dict.
End PyDict.

(* ------------------------------------------------------------------ *)
(** ** The resolver *)

(** Exceptions the module can raise: [KeyError] with its message, and the
    [IndexError] of a subscript out of range. *)
Inductive exn : Type :=
| KeyError (msg : string)
| IndexError.

Definition result (A : Type) : Type := (exn + A)%type.

Module ProjectPathResolver.
Section Resolver.

(** [pathlib.Path], with [Path(p).resolve()] and [Path.name]. *)
Variable Path : Type.
Variable resolve : string -> Path.
Variable name : Path -> string.

(** [settings.TARGET_REPO_PATH] of the configuration module. *)
Variable TARGET_REPO_PATH : string.

(** [ls.RESOLVER_PROJECT_NOT_FOUND.format(project=.., available=..)]:
    the message template of the logs module, as a function of its two
    fields. *)
Variable RESOLVER_PROJECT_NOT_FOUND : string -> string -> string.

(** The state of an instance: [self._mappings]. *)
Definition mappings := list (string * Path).

(** The loop of [__init__] over [mappings.items()]. *)
Definition load (ms : list (string * string)) : mappings :=
  fold_left (fun acc np => PyDict.set acc (fst np) (resolve (snd np))) ms [].

(** The [else] branch of [__init__]. *)
Definition default_mapping : mappings :=
  let default_path := resolve TARGET_REPO_PATH in
  let default_project := name default_path in
  PyDict.set [] default_project default_path.

(** [__init__(self, mappings=None)]; the test is [if mappings:]. *)
Definition init (ms : option (list (string * string))) : mappings :=
  match ms with
  | Some d => if PyDict.truthy d then load d else default_mapping
  | None => default_mapping
  end.

Definition sorted_projects (m : mappings) : list string :=
  PyStr.sorted_by_len_desc (PyDict.keys m).

(** The [for] loop of [extract_project_name]: the first candidate for
    which [qualified_name.startswith(project_name + ".")]. *)
Fixpoint first_match (qualified_name : string) (l : list string) : option string :=
  match l with
  | [] => None
  | project_name :: r =>
      if PyStr.startswith qualified_name (project_name ++ ".")
      then Some project_name
      else first_match qualified_name r
  end.

(** [qualified_name.split(".")[0]] *)
Definition fallback (qualified_name : string) : result string :=
  match nth_error (PyStr.split "." qualified_name) 0 with
  | Some s => inr s
  | None => inl IndexError
  end.

Definition extract_project_name (m : mappings) (qualified_name : string)
  : result string :=
  match first_match qualified_name (sorted_projects m) with
  | Some project_name => inr project_name
  | None => fallback qualified_name
  end.

Definition not_found (m : mappings) (project_name : string) : exn :=
  KeyError (RESOLVER_PROJECT_NOT_FOUND project_name
              (PyStr.join ", " (PyDict.keys m))).

Definition get_project_path (m : mappings) (project_name : string)
  : result Path :=
  if negb (PyDict.contains m project_name) then inl (not_found m project_name)
  else match PyDict.get m project_name with
       | Some p => inr p
       | None => inl (KeyError project_name)
       end.

Definition resolve_path_from_fqn (m : mappings) (qualified_name : string)
  : result Path :=
  match extract_project_name m qualified_name with
  | inl e => inl e
  | inr project_name => get_project_path m project_name
  end.

Definition list_projects (m : mappings) : list string := PyDict.keys m.

(** [add_project]: no [raise] on its path; the new state. *)
Definition add_project (m : mappings) (n path : string) : mappings :=
  PyDict.set m n (resolve path).

(** [remove_project]: the outcome and the state after the call. *)
Definition remove_project (m : mappings) (n : string)
  : result unit * mappings :=
  if negb (PyDict.contains m n) then (inl (not_found m n), m)
  else (inr tt, PyDict.del m n).

(** [from_config(config)], with [config.get_project_mappings()] given. *)
Definition from_config (project_mappings : list (string * string)) : mappings :=
  init (Some project_mappings).

End Resolver.
End ProjectPathResolver.

(* ------------------------------------------------------------------ *)
(** ** Tool names of the prompts module ([codebase_rag/prompts.py]) *)

Module Prompts.

(** [ToolNames] of the types module: the fields [extract_tool_names]
    fills. *)
Record ToolNames : Type := {
  query_graph : string;
  read_file : string;
  analyze_document : string;
  semantic_search : string;
  create_file : string;
  edit_file : string;
  shell_command : string;
  list_directory : string
}.

Section Tools.

(** A tool of the agent library; only its [name] is read. *)
Variable Tool : Type.
Variable tool_name : Tool -> string.

(** [{t.name: t.name for t in tools}] *)
Definition tool_map (tools : list Tool) : list (string * string) :=
  fold_left (fun acc t => PyDict.set acc (tool_name t) (tool_name t)) tools [].

Definition extract_tool_names (tools : list Tool) : ToolNames :=
  let tool_map := tool_map tools in
  {| query_graph :=
       PyDict.get_default tool_map
         "query_codebase_knowledge_graph" "query_codebase_knowledge_graph";
     read_file :=
       PyDict.get_default tool_map "read_file_content" "read_file_content";
     analyze_document :=
       PyDict.get_default tool_map "analyze_document" "analyze_document";
     semantic_search :=
       PyDict.get_default tool_map "semantic_code_search" "semantic_code_search";
     create_file :=
       PyDict.get_default tool_map "create_new_file" "create_new_file";
     edit_file :=
       PyDict.get_default tool_map
         "replace_code_surgically" "replace_code_surgically";
     shell_command :=
       PyDict.get_default tool_map
         "execute_shell_command" "execute_shell_command";
     list_directory :=
       PyDict.get_default tool_map "list_directory" "list_directory" |}.

End Tools.
End Prompts.

(* ------------------------------------------------------------------ *)
(** ** A concrete environment, for running the model *)

Module Sample.

(** Paths as strings; a relative path is made absolute under [/cwd]. *)
Definition resolve (p : string) : string :=
  if PyStr.startswith p "/" then p else "/cwd/" ++ p.

(** The final path segment. *)
Definition name (p : string) : string :=
  last (PyStr.split "/" p) EmptyString.

Definition TARGET_REPO_PATH : string := "/repo/proj".

Definition RESOLVER_PROJECT_NOT_FOUND (project available : string) : string :=
  "Project '" ++ project ++ "' not found. Available projects: " ++ available.

Definition init := ProjectPathResolver.init string resolve name TARGET_REPO_PATH.
Definition extract_project_name :=
  ProjectPathResolver.extract_project_name string.
Definition get_project_path :=
  ProjectPathResolver.get_project_path string RESOLVER_PROJECT_NOT_FOUND.
Definition resolve_path_from_fqn :=
  ProjectPathResolver.resolve_path_from_fqn string RESOLVER_PROJECT_NOT_FOUND.
Definition add_project := ProjectPathResolver.add_project string resolve.
Definition remove_project :=
  ProjectPathResolver.remove_project string RESOLVER_PROJECT_NOT_FOUND.

(** Registries of the scenarios. *)
Definition reg_ab : list (string * string) :=
  [("a", "/r/a"); ("a.b", "/r/ab")].
Definition reg_abc : list (string * string) :=
  [("a", "/r/a"); ("a.b", "/r/ab"); ("a.b.c", "/r/abc")].
Definition reg_nested : list (string * string) :=
  [("a.b", "/r/ab"); ("a.b.c", "/r/abc")].
Definition reg_project : list (string * string) :=
  [("project", "/p1"); ("project.sub", "/p2")].
Definition reg_other : list (string * string) := [("other", "/x")].
Definition reg_empty_name : list (string * string) :=
  [(EmptyString, "/path"); ("pkg", "/pkg")].

Definition reg_three : list (string * string) :=
  [("p1", "/r/p1"); ("p2", "rel/p2"); ("p3", "/r/p3")].

End Sample.

(* ------------------------------------------------------------------ *)
(** ** Reference definitions the theorems compare the code with *)

(** The characters of [s] in front of the first [sep]; all of [s] when it
    holds none. *)
Fixpoint before (sep : ascii) (s : string) : string :=
  match s with
  | EmptyString => EmptyString
  | String c r => if Ascii.eqb c sep then EmptyString else String c (before sep r)
  end.

(** The first segment as the specification words it: the substring up to,
    excluding, the first dot, or the whole string when there is no dot. *)
Definition first_segment_spec (qualified_name : string) : string :=
  match String.index 0 "." qualified_name with
  | Some i => String.substring 0 i qualified_name
  | None => qualified_name
  end.

(** [p] is a dot-bounded prefix of [qualified_name]. *)
Definition dot_prefix (p qualified_name : string) : bool :=
  PyStr.startswith qualified_name (p ++ ".").

(** Descending by length. *)
Definition len_ge (a b : string) : Prop := String.length b <= String.length a.

(* ------------------------------------------------------------------ *)
(** ** Facts about the [str] operations *)

Section StrFacts.

Lemma length_app (a b : string) :
  String.length (a ++ b) = String.length a + String.length b.
Proof. induction a as [|c a IH]; simpl; [reflexivity | now rewrite IH]. Qed.

Lemma startswith_iff (s p : string) :
  PyStr.startswith s p = true <-> exists r, s = p ++ r.
Proof.
  unfold PyStr.startswith. revert s.
  induction p as [|c p IH]; intros s.
  - destruct s; simpl; split; eauto.
  - destruct s as [|d s]; simpl.
    + split; [discriminate | intros [r Hr]; discriminate].
    + destruct (ascii_dec c d) as [->|Hne].
      * rewrite IH. split; intros [r Hr]; exists r.
        -- now rewrite Hr.
        -- now inversion Hr.
      * split; [discriminate | intros [r Hr]; inversion Hr; congruence].
Qed.

Lemma startswith_length (s p : string) :
  PyStr.startswith s p = true -> String.length p <= String.length s.
Proof.
  intros H. apply startswith_iff in H as [r ->]. rewrite length_app. lia.
Qed.

Lemma app_same_length (p q r r' : string) :
  p ++ r = q ++ r' -> String.length p = String.length q -> p = q.
Proof.
  revert q. induction p as [|c p IH]; intros [|d q]; simpl; intros E L;
    try discriminate; [reflexivity|].
  inversion E; subst. f_equal. apply IH; [assumption | lia].
Qed.

(** Two prefixes of one string that have the same length are equal. *)
Lemma startswith_same_length (s p q : string) :
  PyStr.startswith s p = true -> PyStr.startswith s q = true ->
  String.length p = String.length q -> p = q.
Proof.
  intros Hp Hq L.
  apply startswith_iff in Hp as [r Hr]. apply startswith_iff in Hq as [r' Hr'].
  subst s. eapply app_same_length; eauto.
Qed.

Lemma app_dot_inj (p q : string) : p ++ "." = q ++ "." -> p = q.
Proof.
  revert q. induction p as [|c p IH]; intros [|d q]; simpl; intros E.
  - reflexivity.
  - inversion E. destruct q; discriminate.
  - inversion E. destruct p; discriminate.
  - inversion E. f_equal. now apply IH.
Qed.

Lemma split_not_nil (sep : ascii) (s : string) : PyStr.split sep s <> [].
Proof.
  destruct s as [|c s]; simpl; [discriminate|].
  destruct (Ascii.eqb c sep); [discriminate|].
  destruct (PyStr.split sep s); discriminate.
Qed.

Lemma split_head (sep : ascii) (s : string) :
  nth_error (PyStr.split sep s) 0 = Some (before sep s).
Proof.
  induction s as [|c s IH]; simpl; [reflexivity|].
  destruct (Ascii.eqb c sep); [reflexivity|].
  destruct (PyStr.split sep s) as [|h t]; simpl in *; [discriminate|].
  now inversion IH.
Qed.

Lemma index_dot_cons (c : ascii) (s : string) :
  String.index 0 "." (String c s) =
  if Ascii.eqb c "." then Some 0
  else match String.index 0 "." s with Some n => Some (S n) | None => None end.
Proof.
  cbn [String.index].
  replace (String.prefix "." (String c s)) with (Ascii.eqb c "."); [reflexivity|].
  destruct (Ascii.eqb c ".") eqn:E; symmetry.
  - apply Ascii.eqb_eq in E. subst c.
    apply (proj2 (startswith_iff (String "." s) ".")). now exists s.
  - apply not_true_is_false. intros H.
    apply (proj1 (startswith_iff (String c s) ".")) in H as [r Hr].
    inversion Hr. subst c. now rewrite Ascii.eqb_refl in E.
Qed.

Lemma before_index (s : string) :
  before "." s =
  match String.index 0 "." s with
  | Some i => String.substring 0 i s
  | None => s
  end.
Proof.
  induction s as [|c s IH]; [reflexivity|].
  rewrite index_dot_cons. cbn [before].
  destruct (Ascii.eqb c "."); [reflexivity|].
  rewrite IH. destruct (String.index 0 "." s); reflexivity.
Qed.

(** When the string holds a separator, its first piece followed by the
    separator is a prefix of it. *)
Lemma before_dot_prefix (s : string) (i : nat) :
  String.index 0 "." s = Some i ->
  PyStr.startswith s (before "." s ++ ".") = true.
Proof.
  revert i. induction s as [|c s IH]; intros i; [discriminate|].
  rewrite index_dot_cons. cbn [before].
  destruct (Ascii.eqb c ".") eqn:E.
  - apply Ascii.eqb_eq in E. subst c. intros _.
    apply startswith_iff. now exists s.
  - destruct (String.index 0 "." s) as [j|] eqn:Ej; [|discriminate].
    intros _. specialize (IH j eq_refl).
    apply startswith_iff in IH as [r Hr]. apply startswith_iff.
    exists r. simpl. now rewrite <- Hr.
Qed.

Lemma no_dot_no_prefix (s p : string) :
  String.index 0 "." s = None -> PyStr.startswith s (p ++ ".") = false.
Proof.
  intros H. apply not_true_is_false. intros Hp.
  apply startswith_iff in Hp as [r ->].
  revert H. induction p as [|c p IH].
  - cbn [append]. rewrite index_dot_cons. discriminate.
  - cbn [append]. rewrite index_dot_cons.
    destruct (Ascii.eqb c "."); [discriminate|].
    destruct (String.index 0 "." ((p ++ ".") ++ r)) eqn:E; [discriminate|].
    intros _. now apply IH.
Qed.

End StrFacts.

(* ------------------------------------------------------------------ *)
(** ** [sorted(..., key=len, reverse=True)] *)

Section SortFacts.

Lemma insert_by_len_perm (x : string) (l : list string) :
  Permutation (PyStr.insert_by_len x l) (x :: l).
Proof.
  induction l as [|y r IH]; simpl; [reflexivity|].
  destruct (Nat.leb _ _); [reflexivity|].
  rewrite IH. apply perm_swap.
Qed.

Lemma sorted_perm (l : list string) :
  Permutation (PyStr.sorted_by_len_desc l) l.
Proof.
  induction l as [|x r IH]; simpl; [reflexivity|].
  rewrite insert_by_len_perm. now constructor.
Qed.

Lemma sorted_In (l : list string) (x : string) :
  In x (PyStr.sorted_by_len_desc l) <-> In x l.
Proof.
  split; apply Permutation_in; [|symmetry]; apply sorted_perm.
Qed.

Lemma insert_by_len_sorted (x : string) (l : list string) :
  StronglySorted len_ge l -> StronglySorted len_ge (PyStr.insert_by_len x l).
Proof.
  induction 1 as [|y r Hr IH Hy]; simpl.
  - repeat constructor.
  - destruct (Nat.leb (String.length y) (String.length x)) eqn:E.
    + apply Nat.leb_le in E. constructor; [now constructor|].
      constructor; [exact E|].
      eapply Forall_impl; [|exact Hy]. unfold len_ge. intros; lia.
    + apply Nat.leb_gt in E. constructor; [exact IH|].
      eapply Permutation_Forall; [symmetry; apply insert_by_len_perm|].
      constructor; [unfold len_ge; lia | exact Hy].
Qed.

Lemma sorted_desc (l : list string) :
  StronglySorted len_ge (PyStr.sorted_by_len_desc l).
Proof.
  induction l; simpl; [constructor | now apply insert_by_len_sorted].
Qed.

End SortFacts.

(* ------------------------------------------------------------------ *)
(** ** The [dict] operations *)

Section DictFacts.
Context {V : Type}.
Implicit Types (d : list (string * V)) (k : string) (v : V).

Lemma get_None d k : PyDict.get d k = None <-> ~ In k (PyDict.keys d).
Proof.
  induction d as [|[k' v'] r IH]; simpl; [tauto|].
  destruct (String.eqb k' k) eqn:E.
  - apply String.eqb_eq in E. split; [discriminate | tauto].
  - apply String.eqb_neq in E. rewrite IH. tauto.
Qed.

Lemma contains_In d k : PyDict.contains d k = true <-> In k (PyDict.keys d).
Proof.
  unfold PyDict.contains. destruct (PyDict.get d k) eqn:E.
  - split; [intros _|reflexivity].
    destruct (in_dec string_dec k (PyDict.keys d)) as [H|H]; [exact H|].
    apply get_None in H. congruence.
  - apply get_None in E. split; [discriminate | tauto].
Qed.

Lemma contains_false d k : PyDict.contains d k = false <-> ~ In k (PyDict.keys d).
Proof.
  rewrite <- contains_In. destruct (PyDict.contains d k); split; congruence.
Qed.

Lemma get_In d k v : PyDict.get d k = Some v -> In (k, v) d.
Proof.
  induction d as [|[k' v'] r IH]; simpl; [discriminate|].
  destruct (String.eqb k' k) eqn:E.
  - apply String.eqb_eq in E. intros [= ->]. subst. now left.
  - intros H. right. now apply IH.
Qed.

Lemma In_get d k v : PyDict.wf d -> In (k, v) d -> PyDict.get d k = Some v.
Proof.
  unfold PyDict.wf, PyDict.keys.
  induction d as [|[k' v'] r IH]; simpl; [tauto|].
  intros Hnd [H|H].
  - inversion H; subst. now rewrite String.eqb_refl.
  - inversion Hnd as [|? ? Hnot Hnd']; subst.
    destruct (String.eqb k' k) eqn:E.
    + apply String.eqb_eq in E. subst. exfalso. apply Hnot.
      change k with (fst (k, v)). now apply in_map.
    + now apply IH.
Qed.

Lemma get_set_same d k v : PyDict.get (PyDict.set d k v) k = Some v.
Proof.
  induction d as [|[k' v'] r IH]; simpl.
  - now rewrite String.eqb_refl.
  - destruct (String.eqb k' k) eqn:E; simpl; now rewrite E.
Qed.

Lemma get_set_other d k k' v :
  k' <> k -> PyDict.get (PyDict.set d k v) k' = PyDict.get d k'.
Proof.
  intros Hne. induction d as [|[k0 v0] r IH]; simpl.
  - destruct (String.eqb k k') eqn:E; [|reflexivity].
    apply String.eqb_eq in E. congruence.
  - destruct (String.eqb k0 k) eqn:E; simpl; [|now rewrite IH].
    apply String.eqb_eq in E. subst k0.
    destruct (String.eqb k k') eqn:E'; [|reflexivity].
    apply String.eqb_eq in E'. congruence.
Qed.

Lemma keys_set d k v :
  PyDict.keys (PyDict.set d k v) =
  if PyDict.contains d k then PyDict.keys d else (PyDict.keys d ++ [k])%list.
Proof.
  unfold PyDict.contains.
  induction d as [|[k' v'] r IH]; simpl; [reflexivity|].
  destruct (String.eqb k' k) eqn:E; simpl; [reflexivity|].
  rewrite IH. now destruct (PyDict.get r k).
Qed.

Lemma In_keys_set d k v k' :
  In k' (PyDict.keys (PyDict.set d k v)) <-> k' = k \/ In k' (PyDict.keys d).
Proof.
  rewrite keys_set. destruct (PyDict.contains d k) eqn:E.
  - apply contains_In in E. split; [tauto | intros [->|H]; assumption].
  - rewrite in_app_iff. simpl. intuition congruence.
Qed.

Lemma wf_set d k v : PyDict.wf d -> PyDict.wf (PyDict.set d k v).
Proof.
  unfold PyDict.wf. intros H. rewrite keys_set.
  destruct (PyDict.contains d k) eqn:E; [exact H|].
  apply contains_false in E.
  apply (Permutation_NoDup (l := k :: PyDict.keys d)).
  - apply Permutation_cons_append.
  - now constructor.
Qed.

Lemma In_keys_del d k k' :
  In k' (PyDict.keys (PyDict.del d k)) -> In k' (PyDict.keys d).
Proof.
  induction d as [|[k0 v0] r IH]; simpl; [tauto|].
  destruct (String.eqb k0 k); simpl; tauto.
Qed.

Lemma wf_del d k : PyDict.wf d -> PyDict.wf (PyDict.del d k).
Proof.
  unfold PyDict.wf. induction d as [|[k0 v0] r IH]; simpl; [tauto|].
  intros H. inversion H as [|? ? Hnot Hnd]; subst.
  destruct (String.eqb k0 k); [exact Hnd|]. simpl.
  constructor; [|now apply IH].
  intros Hin. apply Hnot. eapply In_keys_del. exact Hin.
Qed.

Lemma del_removes d k :
  PyDict.wf d -> ~ In k (PyDict.keys (PyDict.del d k)).
Proof.
  unfold PyDict.wf. induction d as [|[k0 v0] r IH]; simpl; [tauto|].
  intros H. inversion H as [|? ? Hnot Hnd]; subst.
  destruct (String.eqb k0 k) eqn:E.
  - apply String.eqb_eq in E. now subst.
  - apply String.eqb_neq in E. simpl. intros [H1|H1]; [congruence|].
    now apply IH.
Qed.

End DictFacts.

(* ------------------------------------------------------------------ *)
(** ** The matching loop and the fallback *)

Section MatchFacts.
Import ProjectPathResolver.

Lemma first_match_Some (qn p : string) (l : list string) :
  first_match qn l = Some p -> In p l /\ dot_prefix p qn = true.
Proof.
  unfold dot_prefix.
  induction l as [|x r IH]; simpl; [discriminate|].
  destruct (PyStr.startswith qn (x ++ ".")) eqn:E.
  - intros [= <-]. auto.
  - intros H. destruct (IH H). auto.
Qed.

Lemma first_match_None (qn : string) (l : list string) :
  first_match qn l = None <-> (forall k, In k l -> dot_prefix k qn = false).
Proof.
  unfold dot_prefix.
  induction l as [|x r IH]; simpl.
  - split; [intros _ k [] | reflexivity].
  - destruct (PyStr.startswith qn (x ++ ".")) eqn:E.
    + split; [discriminate|]. intros H.
      rewrite (H x (or_introl eq_refl)) in E. discriminate.
    + rewrite IH. split.
      * intros H k [<-|Hk]; auto.
      * intros H k Hk. apply H. now right.
Qed.

(** On a list in descending order of length the first hit is a longest
    one. *)
Lemma first_match_longest (qn p : string) (l : list string) :
  StronglySorted len_ge l -> first_match qn l = Some p ->
  forall k, In k l -> dot_prefix k qn = true ->
            String.length k <= String.length p.
Proof.
  unfold dot_prefix.
  induction 1 as [|x r Hr IH Hx]; simpl; [discriminate|].
  destruct (PyStr.startswith qn (x ++ ".")) eqn:E.
  - intros [= <-] k [<-|Hk] _; [lia|].
    rewrite Forall_forall in Hx. apply (Hx k Hk).
  - intros H k [<-|Hk] Hm; [congruence|]. now apply IH.
Qed.

Lemma dot_prefix_shorter (p qn : string) :
  dot_prefix p qn = true -> String.length p < String.length qn.
Proof.
  intros H. apply startswith_length in H.
  rewrite length_app in H. simpl in H. lia.
Qed.

(** Two dot-bounded prefixes of one name with the same length are the
    same namespace. *)
Lemma dot_prefix_unique (p q qn : string) :
  dot_prefix p qn = true -> dot_prefix q qn = true ->
  String.length p = String.length q -> p = q.
Proof.
  intros Hp Hq L. apply app_dot_inj.
  apply (startswith_same_length qn); try assumption.
  rewrite !length_app. now rewrite L.
Qed.

Lemma fallback_before (qn : string) : fallback qn = inr (before "." qn).
Proof. unfold fallback. now rewrite split_head. Qed.

Lemma fallback_spec (qn : string) : fallback qn = inr (first_segment_spec qn).
Proof. rewrite fallback_before. unfold first_segment_spec. now rewrite before_index. Qed.

End MatchFacts.

(* ------------------------------------------------------------------ *)
(** ** The resolver's operations *)

Section ResolverFacts.
Variable Path : Type.
Variable RESOLVER_PROJECT_NOT_FOUND : string -> string -> string.
Implicit Types (m : list (string * Path)) (qn n p : string).

Local Abbreviation extract := (ProjectPathResolver.extract_project_name Path).
Local Abbreviation get_path :=
  (ProjectPathResolver.get_project_path Path RESOLVER_PROJECT_NOT_FOUND).
Local Abbreviation resolve_fqn :=
  (ProjectPathResolver.resolve_path_from_fqn Path RESOLVER_PROJECT_NOT_FOUND).
Local Abbreviation not_found :=
  (ProjectPathResolver.not_found Path RESOLVER_PROJECT_NOT_FOUND).
Local Abbreviation sorted_projects := (ProjectPathResolver.sorted_projects Path).

Lemma sorted_projects_In m k :
  In k (sorted_projects m) <-> In k (PyDict.keys m).
Proof. apply sorted_In. Qed.

Lemma extract_total m qn : exists r, extract m qn = inr r.
Proof.
  unfold ProjectPathResolver.extract_project_name.
  destruct (ProjectPathResolver.first_match qn (sorted_projects m)); eauto.
  rewrite fallback_spec. eauto.
Qed.

Lemma no_match_iff m qn :
  ProjectPathResolver.first_match qn (sorted_projects m) = None <->
  (forall k, In k (PyDict.keys m) -> dot_prefix k qn = false).
Proof.
  rewrite first_match_None. split; intros H k Hk; apply H;
    now apply sorted_projects_In.
Qed.

Lemma extract_no_match m qn :
  (forall k, In k (PyDict.keys m) -> dot_prefix k qn = false) ->
  extract m qn = inr (first_segment_spec qn).
Proof.
  intros H. apply no_match_iff in H.
  unfold ProjectPathResolver.extract_project_name. rewrite H.
  apply fallback_spec.
Qed.

Lemma matched_longest m qn p :
  ProjectPathResolver.first_match qn (sorted_projects m) = Some p ->
  In p (PyDict.keys m) /\ dot_prefix p qn = true /\
  (forall k, In k (PyDict.keys m) -> dot_prefix k qn = true ->
             String.length k <= String.length p).
Proof.
  intros H. destruct (first_match_Some _ _ _ H) as [Hin Hp].
  split; [now apply sorted_projects_In|]. split; [exact Hp|].
  intros k Hk Hm.
  apply (first_match_longest qn p (sorted_projects m)); auto.
  - apply sorted_desc.
  - now apply sorted_projects_In.
Qed.

(** As soon as one registered namespace is a dot-bounded prefix, the
    result is a longest registered dot-bounded prefix. *)
Lemma extract_longest m qn k :
  In k (PyDict.keys m) -> dot_prefix k qn = true ->
  exists p, extract m qn = inr p /\
            ProjectPathResolver.first_match qn (sorted_projects m) = Some p /\
            In p (PyDict.keys m) /\ dot_prefix p qn = true /\
            (forall k', In k' (PyDict.keys m) -> dot_prefix k' qn = true ->
                        String.length k' <= String.length p).
Proof.
  intros Hk Hm.
  unfold ProjectPathResolver.extract_project_name.
  destruct (ProjectPathResolver.first_match qn (sorted_projects m)) as [p|] eqn:E.
  - exists p. destruct (matched_longest _ _ _ E) as (H1 & H2 & H3). auto.
  - rewrite (proj1 (no_match_iff m qn) E k Hk) in Hm. discriminate.
Qed.

Lemma get_path_registered m n :
  In n (PyDict.keys m) ->
  exists v, PyDict.get m n = Some v /\ get_path m n = inr v.
Proof.
  intros H. unfold ProjectPathResolver.get_project_path.
  rewrite (proj2 (contains_In m n) H). simpl.
  destruct (PyDict.get m n) as [v|] eqn:E; [eauto|].
  apply get_None in E. contradiction.
Qed.

Lemma get_path_absent m n :
  ~ In n (PyDict.keys m) -> get_path m n = inl (not_found m n).
Proof.
  intros H. unfold ProjectPathResolver.get_project_path.
  now rewrite (proj2 (contains_false m n) H).
Qed.

Lemma get_path_stored m n v :
  PyDict.get m n = Some v -> get_path m n = inr v.
Proof.
  intros H. unfold ProjectPathResolver.get_project_path, PyDict.contains.
  now rewrite H.
Qed.

(** Every registry the operations produce has each namespace once. *)
Lemma load_wf (resolve : string -> Path) (ms : list (string * string)) :
  PyDict.wf (ProjectPathResolver.load Path resolve ms).
Proof.
  unfold ProjectPathResolver.load.
  assert (H : PyDict.wf (@nil (string * Path))) by constructor.
  revert H. generalize (@nil (string * Path)).
  induction ms as [|[k v] r IH]; intros acc H; simpl; [exact H|].
  apply IH. now apply wf_set.
Qed.

Lemma init_wf (resolve : string -> Path) (name : Path -> string)
      (target : string) (ms : option (list (string * string))) :
  PyDict.wf (ProjectPathResolver.init Path resolve name target ms).
Proof.
  assert (D : PyDict.wf (ProjectPathResolver.default_mapping Path resolve name target)).
  { apply wf_set. constructor. }
  destruct ms as [d|]; simpl; [|exact D].
  destruct (PyDict.truthy d); [apply load_wf | exact D].
Qed.

Lemma add_project_wf (resolve : string -> Path) m n p :
  PyDict.wf m -> PyDict.wf (ProjectPathResolver.add_project Path resolve m n p).
Proof. apply wf_set. Qed.

Lemma remove_project_wf m n :
  PyDict.wf m ->
  PyDict.wf (snd (ProjectPathResolver.remove_project Path RESOLVER_PROJECT_NOT_FOUND m n)).
Proof.
  intros H. unfold ProjectPathResolver.remove_project.
  destruct (negb (PyDict.contains m n)); simpl; [exact H | now apply wf_del].
Qed.

Lemma keys_dec m n : In n (PyDict.keys m) \/ ~ In n (PyDict.keys m).
Proof. destruct (in_dec string_dec n (PyDict.keys m)); auto. Qed.

End ResolverFacts.

(* ------------------------------------------------------------------ *)
(** ** Properties of the registry and of the resolver *)

Section Properties.
Variable Path : Type.
Variable resolve : string -> Path.
Variable name : Path -> string.
Variable TARGET_REPO_PATH : string.
Variable RESOLVER_PROJECT_NOT_FOUND : string -> string -> string.
Implicit Types (m : list (string * Path)) (qn n p : string).

Local Abbreviation init :=
  (ProjectPathResolver.init Path resolve name TARGET_REPO_PATH).
Local Abbreviation extract := (ProjectPathResolver.extract_project_name Path).
Local Abbreviation matched m qn :=
  (ProjectPathResolver.first_match qn (ProjectPathResolver.sorted_projects Path m)).
Local Abbreviation get_path :=
  (ProjectPathResolver.get_project_path Path RESOLVER_PROJECT_NOT_FOUND).
Local Abbreviation resolve_fqn :=
  (ProjectPathResolver.resolve_path_from_fqn Path RESOLVER_PROJECT_NOT_FOUND).
Local Abbreviation list_projects := (ProjectPathResolver.list_projects Path).
Local Abbreviation add_project := (ProjectPathResolver.add_project Path resolve).
Local Abbreviation remove_project :=
  (ProjectPathResolver.remove_project Path RESOLVER_PROJECT_NOT_FOUND).
Local Abbreviation available m := (PyStr.join ", " (list_projects m)).

(** What the claim C1 says of an empty registry holds on a registry
    without entries: nothing is listed, and [get_project_path] and
    [resolve_path_from_fqn] raise [KeyError] with an empty list of
    available projects. *)
Lemma empty_registry_raises :
  list_projects [] = [] /\
  (forall n,
      get_path [] n = inl (KeyError (RESOLVER_PROJECT_NOT_FOUND n EmptyString))) /\
  (forall qn,
      resolve_fqn [] qn =
      inl (KeyError (RESOLVER_PROJECT_NOT_FOUND (first_segment_spec qn) EmptyString))).
Proof.
  repeat split.
  intros qn. unfold ProjectPathResolver.resolve_path_from_fqn.
  rewrite (extract_no_match Path [] qn); [reflexivity|].
  intros k [].
Qed.

(** C1, a defect of the code.  The docstring of [__init__] gives [None] as
    the case that loads the default mapping, and the tests build the
    resolver from an empty mapping to start from a blank registry.  The
    test [if mappings:] is false for the empty mapping too, so at the
    empty mapping the code does not build an empty registry: it stores
    the default entry derived from the configured root, exactly as for
    [None]; [list_projects] returns that one namespace, and
    [get_project_path] on it returns the configured root instead of
    raising. *)
Theorem init_empty_mapping_is_default :
  let default_path := resolve TARGET_REPO_PATH in
  init (Some []) = [(name default_path, default_path)] /\
  init (Some []) = init None /\
  list_projects (init (Some [])) = [name default_path] /\
  list_projects (init (Some [])) <> [] /\
  get_path (init (Some [])) (name default_path) = inr default_path.
Proof.
  cbv zeta. repeat split.
  - discriminate.
  - unfold ProjectPathResolver.get_project_path, PyDict.contains. simpl.
    now rewrite String.eqb_refl.
Qed.

(** C2, amended.  With a namespace [a] and its child [a.b] both registered
    and a qualified name that starts with [a.b.], the result is a
    registered namespace that is a dot-bounded prefix of the name and at
    least as long as [a.b]; it is never [a]; and it is [a.b] whenever no
    registered namespace longer than [a.b] is a dot-bounded prefix of the
    name.  The literal namespaces of the claim are [a := "a"], [b := "b"]. *)
Theorem longest_prefix_wins m qn (a b : string) :
  In a (list_projects m) -> In (a ++ "." ++ b) (list_projects m) ->
  PyStr.startswith qn ((a ++ "." ++ b) ++ ".") = true ->
  exists r,
    extract m qn = inr r /\
    In r (list_projects m) /\ dot_prefix r qn = true /\
    String.length (a ++ "." ++ b) <= String.length r /\ r <> a /\
    ((forall k, In k (list_projects m) -> dot_prefix k qn = true ->
                String.length k <= String.length (a ++ "." ++ b)) ->
     r = a ++ "." ++ b).
Proof.
  intros _ Hab Hqn.
  destruct (extract_longest Path m qn (a ++ "." ++ b) Hab Hqn)
    as (r & Hr & _ & Hin & Hpre & Hmax).
  exists r. split; [exact Hr|]. split; [exact Hin|]. split; [exact Hpre|].
  pose proof (Hmax _ Hab Hqn) as Hlen.
  split; [exact Hlen|]. split.
  - intros ->. rewrite !length_app in Hlen. simpl in Hlen. lia.
  - intros Hno. apply (dot_prefix_unique r (a ++ "." ++ b) qn); auto.
    specialize (Hno r Hin Hpre). lia.
Qed.

(** C3.  The loop of [extract_project_name] selects a namespace only if
    the qualified name starts with that namespace followed by a dot; when
    no registered namespace passes this test the loop selects nothing and
    the result is the first segment.  With only [project] registered,
    [projectX.foo] selects nothing and yields [projectX]. *)
Theorem dot_bounded_matching m qn :
  (forall p, matched m qn = Some p ->
             In p (list_projects m) /\ PyStr.startswith qn (p ++ ".") = true) /\
  ((forall k, In k (list_projects m) -> PyStr.startswith qn (k ++ ".") = false) ->
   matched m qn = None /\ extract m qn = inr (first_segment_spec qn)) /\
  (forall v : Path,
      PyStr.startswith "projectX.foo" "project" = true /\
      matched [("project", v)] "projectX.foo" = None /\
      extract [("project", v)] "projectX.foo" = inr "projectX").
Proof.
  split; [|split].
  - intros p H. destruct (matched_longest Path m qn p H) as (H1 & H2 & _). auto.
  - intros H. split.
    + now apply no_match_iff.
    + now apply extract_no_match.
  - intros v. repeat split.
Qed.

(** C4.  [extract_project_name] always returns a string, never an
    exception; and when no registered namespace is a dot-bounded prefix
    of the qualified name, that string is the part of the name in front
    of its first dot, or the name itself when it has no dot. *)
Theorem extract_total_with_fallback m qn :
  (exists r, extract m qn = inr r) /\
  ((forall k, In k (list_projects m) -> dot_prefix k qn = false) ->
   extract m qn =
   inr (match String.index 0 "." qn with
        | Some i => String.substring 0 i qn
        | None => qn
        end)).
Proof.
  split; [apply extract_total|].
  intros H. now apply extract_no_match.
Qed.

(** C5.  [resolve_path_from_fqn] is [extract_project_name] followed by
    [get_project_path]: extraction yields a namespace, and the call
    returns that namespace's stored root when it is registered, and
    raises the not-found [KeyError] when it is not.  Nothing else can
    happen. *)
Theorem resolve_is_extract_then_get m qn :
  exists p,
    extract m qn = inr p /\
    resolve_fqn m qn = get_path m p /\
    ((In p (list_projects m) /\
      exists v, PyDict.get m p = Some v /\ resolve_fqn m qn = inr v)
     \/
     (~ In p (list_projects m) /\
      resolve_fqn m qn =
      inl (KeyError (RESOLVER_PROJECT_NOT_FOUND p (available m))))).
Proof.
  destruct (extract_total Path m qn) as [p Hp]. exists p.
  assert (E : resolve_fqn m qn = get_path m p).
  { unfold ProjectPathResolver.resolve_path_from_fqn. now rewrite Hp. }
  split; [exact Hp|]. split; [exact E|]. rewrite E.
  destruct (keys_dec Path m p) as [H|H].
  - left. split; [exact H|].
    now apply get_path_registered.
  - right. split; [exact H|]. now apply get_path_absent.
Qed.

(** C6, amended.  When the qualified name is itself a registered
    namespace that contains a dot, [extract_project_name] does not return
    that namespace: the result is strictly shorter than the name.  If no
    registered namespace is a dot-bounded prefix of the name, the result
    is the first segment, which is then not registered, and
    [resolve_path_from_fqn] raises the not-found [KeyError].  Otherwise
    the result is a longest registered dot-bounded prefix of the name and
    [resolve_path_from_fqn] returns its stored root. *)
Theorem exact_namespace_not_matched m qn i :
  In qn (list_projects m) -> String.index 0 "." qn = Some i ->
  exists r,
    extract m qn = inr r /\ r <> qn /\ String.length r < String.length qn /\
    (((forall k, In k (list_projects m) -> dot_prefix k qn = false) /\
      r = String.substring 0 i qn /\ ~ In r (list_projects m) /\
      resolve_fqn m qn =
      inl (KeyError (RESOLVER_PROJECT_NOT_FOUND r (available m))))
     \/
     (In r (list_projects m) /\ dot_prefix r qn = true /\
      (forall k, In k (list_projects m) -> dot_prefix k qn = true ->
                 String.length k <= String.length r) /\
      exists v, PyDict.get m r = Some v /\ resolve_fqn m qn = inr v)).
Proof.
  intros _ Hi.
  assert (Hfirst : before "." qn = String.substring 0 i qn).
  { rewrite before_index. now rewrite Hi. }
  pose proof (before_dot_prefix qn i Hi) as Hseg.
  fold (dot_prefix (before "." qn) qn) in Hseg.
  destruct (matched m qn) as [r|] eqn:E.
  - destruct (matched_longest Path m qn r E) as (Hin & Hpre & Hmax).
    assert (Hx : extract m qn = inr r).
    { unfold ProjectPathResolver.extract_project_name. now rewrite E. }
    pose proof (dot_prefix_shorter r qn Hpre) as Hlt.
    exists r. split; [exact Hx|]. split; [intros ->; lia|]. split; [exact Hlt|].
    right. split; [exact Hin|]. split; [exact Hpre|]. split; [exact Hmax|].
    destruct (get_path_registered Path RESOLVER_PROJECT_NOT_FOUND m r Hin)
      as (v & Hv & Hg).
    exists v. split; [exact Hv|].
    unfold ProjectPathResolver.resolve_path_from_fqn. now rewrite Hx.
  - pose proof (proj1 (no_match_iff Path m qn) E) as Hno.
    assert (Hx : extract m qn = inr (before "." qn)).
    { unfold ProjectPathResolver.extract_project_name. rewrite E.
      apply fallback_before. }
    pose proof (dot_prefix_shorter _ qn Hseg) as Hlt.
    assert (Hnin : ~ In (before "." qn) (list_projects m)).
    { intros Hin. rewrite (Hno _ Hin) in Hseg. discriminate. }
    exists (before "." qn).
    split; [exact Hx|]. split; [intros Heq; rewrite Heq in Hlt; lia|].
    split; [exact Hlt|].
    left. split; [exact Hno|]. split; [exact Hfirst|]. split; [exact Hnin|].
    unfold ProjectPathResolver.resolve_path_from_fqn. rewrite Hx.
    now apply get_path_absent.
Qed.

(** C7.  After [add_project n path], [get_project_path n] returns
    [Path(path).resolve()], whatever the path string and whatever the
    registry held before: the entry stored under [n] is the resolved
    path, and [get_project_path] hands back the stored entry as it is. *)
Theorem add_then_get m n path :
  get_path (add_project m n path) n = inr (resolve path) /\
  PyDict.get (add_project m n path) n = Some (resolve path) /\
  In (n, resolve path) (add_project m n path) /\
  (forall m' v, PyDict.get m' n = Some v -> get_path m' n = inr v).
Proof.
  assert (H : PyDict.get (add_project m n path) n = Some (resolve path))
    by apply get_set_same.
  split; [now apply get_path_stored|]. split; [exact H|].
  split; [now apply get_In|].
  intros m' v. apply get_path_stored.
Qed.

(** C8.  [remove_project n] on a registry that does not hold [n] raises
    [KeyError] whose message is built from [n] and the currently
    registered namespaces, and leaves the registry as it was. *)
Theorem remove_absent_unchanged m n :
  ~ In n (list_projects m) ->
  remove_project m n =
  (inl (KeyError (RESOLVER_PROJECT_NOT_FOUND n (available m))), m).
Proof.
  intros H. unfold ProjectPathResolver.remove_project.
  now rewrite (proj2 (contains_false m n) H).
Qed.

(** C9.  [get_project_path n] has exactly two outcomes: [n] is registered
    and the call returns the root stored for it, or [n] is not registered
    and the call raises [KeyError] built from [n] and the list of all
    registered namespaces. *)
Theorem get_raises_iff_absent m n :
  (In n (list_projects m) /\
   exists v, PyDict.get m n = Some v /\ get_path m n = inr v)
  \/
  (~ In n (list_projects m) /\
   get_path m n =
   inl (KeyError (RESOLVER_PROJECT_NOT_FOUND n (available m)))).
Proof.
  destruct (keys_dec Path m n) as [H|H].
  - left. split; [exact H|]. now apply get_path_registered.
  - right. split; [exact H|]. now apply get_path_absent.
Qed.

(** C10.  The empty string can be registered: after [add_project] with
    the empty name it is listed and [get_project_path] returns its root.
    And when the empty string is registered and no other registered
    namespace is a dot-bounded prefix of a qualified name that begins
    with a dot, [extract_project_name] returns the empty string. *)
Theorem empty_namespace m qn path :
  (In EmptyString (list_projects (add_project m EmptyString path)) /\
   get_path (add_project m EmptyString path) EmptyString = inr (resolve path)) /\
  (In EmptyString (list_projects m) ->
   (forall k, In k (list_projects m) -> k <> EmptyString ->
              dot_prefix k qn = false) ->
   PyStr.startswith qn "." = true ->
   extract m qn = inr EmptyString).
Proof.
  split.
  - split.
    + apply In_keys_set. now left.
    + apply get_path_stored. apply get_set_same.
  - intros Hin Hno Hdot.
    destruct (extract_longest Path m qn EmptyString Hin Hdot)
      as (r & Hr & _ & Hrin & Hpre & _).
    rewrite Hr. f_equal.
    destruct (string_dec r EmptyString) as [->|Hne]; [reflexivity|].
    rewrite (Hno r Hrin Hne) in Hpre. discriminate.
Qed.

End Properties.

(* ------------------------------------------------------------------ *)
(** ** The properties on concrete registries *)

Section Instances.
Import Sample.

Local Abbreviation keys := (ProjectPathResolver.list_projects string).

(** C1 at a concrete configuration: built from the empty mapping with
    [/repo/proj] as the configured root, the registry is not empty; it
    lists the default project [proj]. *)
Lemma init_empty_mapping_not_empty :
  keys (Sample.init (Some [])) = ["proj"] /\
  keys (Sample.init (Some [])) <> [] /\
  Sample.get_project_path (Sample.init (Some [])) "proj" = inr "/repo/proj".
Proof. repeat split. discriminate. Qed.

(** C2 as stated fails: with [a.b.c] registered next to [a] and [a.b],
    a name that starts with [a.b.] resolves to [a.b.c]. *)
Lemma longest_prefix_not_ab :
  In "a" (keys reg_abc) /\ In "a.b" (keys reg_abc) /\
  PyStr.startswith "a.b.c.f" "a.b." = true /\
  Sample.extract_project_name reg_abc "a.b.c.f" = inr "a.b.c" /\
  Sample.extract_project_name reg_abc "a.b.c.f" <> inr "a.b".
Proof.
  split; [simpl; auto|]. split; [simpl; auto|]. split; [reflexivity|].
  split; [reflexivity | discriminate].
Qed.

Lemma longest_prefix_wins_witness :
  In "a" (keys reg_ab) /\ In "a.b" (keys reg_ab) /\
  PyStr.startswith "a.b.x.f" "a.b." = true /\
  exists r,
    Sample.extract_project_name reg_ab "a.b.x.f" = inr r /\
    In r (keys reg_ab) /\ dot_prefix r "a.b.x.f" = true /\
    String.length "a.b" <= String.length r /\ r <> "a" /\
    ((forall k, In k (keys reg_ab) -> dot_prefix k "a.b.x.f" = true ->
                String.length k <= String.length "a.b") -> r = "a.b").
Proof.
  assert (H1 : In "a" (keys reg_ab)) by (simpl; auto).
  assert (H2 : In "a.b" (keys reg_ab)) by (simpl; auto).
  assert (H3 : PyStr.startswith "a.b.x.f" "a.b." = true) by reflexivity.
  repeat (split; [assumption|]).
  exact (longest_prefix_wins string reg_ab "a.b.x.f" "a" "b" H1 H2 H3).
Defined.

Lemma dot_bounded_matching_witness :
  ProjectPathResolver.first_match "project.sub.module.func"
    (ProjectPathResolver.sorted_projects string reg_project) = Some "project.sub" /\
  In "project.sub" (keys reg_project) /\
  PyStr.startswith "project.sub.module.func" ("project.sub" ++ ".") = true.
Proof.
  assert (H : ProjectPathResolver.first_match "project.sub.module.func"
                (ProjectPathResolver.sorted_projects string reg_project)
              = Some "project.sub") by reflexivity.
  split; [exact H|].
  exact (proj1 (dot_bounded_matching string reg_project "project.sub.module.func")
           "project.sub" H).
Defined.

Lemma extract_total_with_fallback_witness :
  (forall k, In k (keys reg_other) ->
             dot_prefix k "unknown.module.function" = false) /\
  Sample.extract_project_name reg_other "unknown.module.function" =
  inr (match String.index 0 "." "unknown.module.function" with
       | Some i => String.substring 0 i "unknown.module.function"
       | None => "unknown.module.function"
       end).
Proof.
  assert (H : forall k, In k (keys reg_other) ->
                        dot_prefix k "unknown.module.function" = false).
  { intros k [<-|[]]. reflexivity. }
  split; [exact H|].
  exact (proj2 (extract_total_with_fallback string reg_other
                  "unknown.module.function") H).
Defined.

(** C6 as stated fails: with [a.b] and [a.b.c] registered, the name
    [a.b.c] resolves to [a.b], not to its first segment [a], and
    [resolve_path_from_fqn] succeeds although [a] is not registered. *)
Lemma exact_namespace_not_first_segment :
  In "a.b.c" (keys reg_nested) /\
  first_segment_spec "a.b.c" = "a" /\
  ~ In "a" (keys reg_nested) /\
  Sample.extract_project_name reg_nested "a.b.c" = inr "a.b" /\
  Sample.extract_project_name reg_nested "a.b.c" <> inr "a" /\
  Sample.resolve_path_from_fqn reg_nested "a.b.c" = inr "/r/ab".
Proof.
  split; [simpl; auto|]. split; [reflexivity|].
  split; [simpl; intros [H|[H|[]]]; discriminate|].
  split; [reflexivity|]. split; [discriminate | reflexivity].
Qed.

Lemma exact_namespace_not_matched_witness :
  In "a.b" (keys reg_ab) /\ String.index 0 "." "a.b" = Some 1 /\
  exists r,
    Sample.extract_project_name reg_ab "a.b" = inr r /\
    r <> "a.b" /\ String.length r < String.length "a.b".
Proof.
  assert (H1 : In "a.b" (keys reg_ab)) by (simpl; auto).
  assert (H2 : String.index 0 "." "a.b" = Some 1) by reflexivity.
  split; [exact H1|]. split; [exact H2|].
  destruct (exact_namespace_not_matched string RESOLVER_PROJECT_NOT_FOUND
              reg_ab "a.b" 1 H1 H2) as (r & Hr & Hne & Hlt & _).
  exists r. auto.
Defined.

Lemma add_then_get_witness :
  PyDict.get reg_ab "a" = Some "/r/a" /\
  Sample.get_project_path reg_ab "a" = inr "/r/a".
Proof.
  assert (H : PyDict.get reg_ab "a" = Some "/r/a") by reflexivity.
  split; [exact H|].
  exact (proj2 (proj2 (proj2
           (add_then_get string Sample.resolve RESOLVER_PROJECT_NOT_FOUND
              [] "a" "rel/x"))) reg_ab "/r/a" H).
Defined.

Lemma remove_absent_unchanged_witness :
  ~ In "zz" (keys reg_ab) /\
  Sample.remove_project reg_ab "zz" =
  (inl (KeyError (RESOLVER_PROJECT_NOT_FOUND "zz" "a, a.b")), reg_ab).
Proof.
  assert (H : ~ In "zz" (keys reg_ab)).
  { simpl. intros [H|[H|[]]]; discriminate. }
  split; [exact H|].
  exact (remove_absent_unchanged string RESOLVER_PROJECT_NOT_FOUND reg_ab "zz" H).
Defined.

Lemma empty_namespace_witness :
  In EmptyString (keys reg_empty_name) /\
  (forall k, In k (keys reg_empty_name) -> k <> EmptyString ->
             dot_prefix k ".module.function" = false) /\
  PyStr.startswith ".module.function" "." = true /\
  Sample.extract_project_name reg_empty_name ".module.function" = inr EmptyString.
Proof.
  assert (H1 : In EmptyString (keys reg_empty_name)) by (simpl; auto).
  assert (H2 : forall k, In k (keys reg_empty_name) -> k <> EmptyString ->
                         dot_prefix k ".module.function" = false).
  { intros k [<-|[<-|[]]] Hk; [now elim Hk | reflexivity]. }
  assert (H3 : PyStr.startswith ".module.function" "." = true) by reflexivity.
  split; [exact H1|]. split; [exact H2|]. split; [exact H3|].
  exact (proj2 (empty_namespace string Sample.resolve RESOLVER_PROJECT_NOT_FOUND
                  reg_empty_name ".module.function" "/p") H1 H2 H3).
Defined.

End Instances.


(* ------------------------------------------------------------------ *)
(** ** More on the [dict] operations: order of keys, removal, rebuilding *)

Section DictOrder.
Context {V : Type}.
Implicit Types (d : list (string * V)) (k : string) (v : V).

Lemma set_new d k v :
  ~ In k (PyDict.keys d) -> PyDict.set d k v = (d ++ [(k, v)])%list.
Proof.
  induction d as [|[k' v'] r IH]; simpl; [reflexivity|].
  intros H. destruct (String.eqb k' k) eqn:E.
  - apply String.eqb_eq in E. tauto.
  - rewrite IH; [reflexivity | tauto].
Qed.

Lemma set_not_nil d k v : PyDict.set d k v <> [].
Proof.
  destruct d as [|[k' v'] r]; simpl; [discriminate|].
  destruct (String.eqb k' k); discriminate.
Qed.

Lemma set_set d k v1 v2 :
  PyDict.set (PyDict.set d k v1) k v2 = PyDict.set d k v2.
Proof.
  induction d as [|[k' v'] r IH]; simpl.
  - now rewrite String.eqb_refl.
  - destruct (String.eqb k' k) eqn:E; simpl; rewrite E; [reflexivity|].
    now rewrite IH.
Qed.

Lemma del_set_new d k v :
  ~ In k (PyDict.keys d) -> PyDict.del (PyDict.set d k v) k = d.
Proof.
  induction d as [|[k' v'] r IH]; simpl.
  - intros _. now rewrite String.eqb_refl.
  - intros H. destruct (String.eqb k' k) eqn:E.
    + apply String.eqb_eq in E. tauto.
    + simpl. rewrite E. rewrite IH; [reflexivity | tauto].
Qed.

Lemma get_del_other d k k' :
  k' <> k -> PyDict.get (PyDict.del d k) k' = PyDict.get d k'.
Proof.
  intros Hne. induction d as [|[k0 v0] r IH]; simpl; [reflexivity|].
  destruct (String.eqb k0 k) eqn:E; simpl.
  - apply String.eqb_eq in E. subst k0.
    destruct (String.eqb k k') eqn:E'; [|reflexivity].
    apply String.eqb_eq in E'. congruence.
  - now rewrite IH.
Qed.

Lemma In_keys_del_other d k k' :
  k' <> k -> In k' (PyDict.keys d) -> In k' (PyDict.keys (PyDict.del d k)).
Proof.
  intros Hne. induction d as [|[k0 v0] r IH]; simpl; [tauto|].
  destruct (String.eqb k0 k) eqn:E; simpl.
  - apply String.eqb_eq in E. subst k0. intros [H|H]; [congruence | exact H].
  - tauto.
Qed.

(** On a dict, deleting [k] leaves the other keys in their order. *)
Lemma keys_del d k :
  PyDict.wf d ->
  PyDict.keys (PyDict.del d k) =
  filter (fun x => negb (String.eqb x k)) (PyDict.keys d).
Proof.
  unfold PyDict.wf. induction d as [|[k0 v0] r IH]; simpl; [reflexivity|].
  intros H. inversion H as [|? ? Hnot Hnd]; subst.
  destruct (String.eqb k0 k) eqn:E; simpl.
  - apply String.eqb_eq in E. subst k0.
    clear IH H Hnd. induction r as [|[k1 v1] r IH]; simpl in *; [reflexivity|].
    destruct (String.eqb k1 k) eqn:E1.
    + apply String.eqb_eq in E1. tauto.
    + simpl. f_equal. apply IH. tauto.
  - f_equal. now apply IH.
Qed.

End DictOrder.

(* ------------------------------------------------------------------ *)
(** ** Building the registry *)

Section LoadFacts.
Variable Path : Type.
Variable resolve : string -> Path.
Implicit Types (ms : list (string * string)) (acc : list (string * Path)).

Local Abbreviation step :=
  (fun (acc : list (string * Path)) (np : string * string) =>
     PyDict.set acc (fst np) (resolve (snd np))).
Local Abbreviation resolved ms :=
  (map (fun np : string * string => (fst np, resolve (snd np))) ms).

Lemma keys_resolved ms : PyDict.keys (resolved ms) = map fst ms.
Proof. unfold PyDict.keys. rewrite map_map. reflexivity. Qed.

(** Loading entries with pairwise different names, none of them present
    yet, appends them in order. *)
Lemma fold_set_fresh ms acc :
  NoDup (PyDict.keys acc ++ map fst ms)%list ->
  fold_left step ms acc = (acc ++ resolved ms)%list.
Proof.
  revert acc. induction ms as [|[k v] r IH]; intros acc H; simpl.
  - now rewrite app_nil_r.
  - assert (Hk : ~ In k (PyDict.keys acc)).
    { intros Hin. apply NoDup_remove_2 in H. apply H.
      apply in_or_app. now left. }
    rewrite (set_new acc k (resolve v) Hk).
    rewrite IH.
    + now rewrite <- app_assoc.
    + unfold PyDict.keys in *. rewrite map_app. simpl.
      rewrite <- app_assoc. exact H.
Qed.

Lemma fold_set_not_nil ms acc :
  acc <> [] -> fold_left step ms acc <> [].
Proof.
  revert acc. induction ms as [|[k v] r IH]; intros acc H; simpl; [exact H|].
  apply IH. apply set_not_nil.
Qed.

Lemma load_fresh ms :
  NoDup (map fst ms) -> ProjectPathResolver.load Path resolve ms = resolved ms.
Proof.
  intros H. unfold ProjectPathResolver.load. now rewrite fold_set_fresh.
Qed.

Lemma load_not_nil ms :
  ms <> [] -> ProjectPathResolver.load Path resolve ms <> [].
Proof.
  destruct ms as [|[k v] r]; [congruence|]. intros _.
  unfold ProjectPathResolver.load. simpl.
  apply fold_set_not_nil. discriminate.
Qed.

Lemma get_resolved ms k v :
  NoDup (map fst ms) -> In (k, v) ms ->
  PyDict.get (resolved ms) k = Some (resolve v).
Proof.
  intros Hnd Hin. apply In_get.
  - unfold PyDict.wf. now rewrite keys_resolved.
  - change (k, resolve v) with
      ((fun np : string * string => (fst np, resolve (snd np))) (k, v)).
    now apply in_map.
Qed.

End LoadFacts.

(* ------------------------------------------------------------------ *)
(** ** More on extraction *)

Section ExtractFacts.
Variable Path : Type.
Implicit Types (m : list (string * Path)) (qn n p : string).

Local Abbreviation extract := (ProjectPathResolver.extract_project_name Path).
Local Abbreviation sorted_projects := (ProjectPathResolver.sorted_projects Path).

Lemma before_is_prefix (sep : ascii) (s : string) :
  PyStr.startswith s (before sep s) = true.
Proof.
  apply startswith_iff.
  induction s as [|c s [r IH]]; simpl; [now exists EmptyString|].
  destruct (Ascii.eqb c sep).
  - now exists (String c s).
  - exists r. simpl. now rewrite <- IH.
Qed.

Lemma before_no_dot (s : string) : String.index 0 "." (before "." s) = None.
Proof.
  induction s as [|c s IH]; [reflexivity|].
  cbn [before]. destruct (Ascii.eqb c ".") eqn:E; [reflexivity|].
  rewrite index_dot_cons, E, IH. reflexivity.
Qed.

Lemma dot_prefix_is_prefix p qn :
  dot_prefix p qn = true -> PyStr.startswith qn p = true.
Proof.
  intros H. apply startswith_iff in H as [r ->]. apply startswith_iff.
  exists ("." ++ r). induction p as [|c p IH]; simpl; [reflexivity|].
  now rewrite IH.
Qed.

Lemma dot_prefix_app n rest : dot_prefix n (n ++ "." ++ rest) = true.
Proof.
  apply startswith_iff. exists rest.
  induction n as [|c n IH]; simpl; [reflexivity|]. f_equal. exact IH.
Qed.

Lemma extract_fallback m qn :
  (forall k, In k (PyDict.keys m) -> dot_prefix k qn = false) ->
  extract m qn = inr (before "." qn).
Proof.
  intros H. apply no_match_iff in H.
  unfold ProjectPathResolver.extract_project_name. rewrite H.
  apply fallback_before.
Qed.

(** Either some registered namespace is a dot-bounded prefix, or none is. *)
Lemma match_or_not m qn :
  (exists k, In k (PyDict.keys m) /\ dot_prefix k qn = true) \/
  (forall k, In k (PyDict.keys m) -> dot_prefix k qn = false).
Proof.
  destruct (ProjectPathResolver.first_match qn (sorted_projects m)) as [p|] eqn:E.
  - left. exists p. destruct (matched_longest Path m qn p E) as (H1 & H2 & _). auto.
  - right. now apply no_match_iff.
Qed.

(** Extraction looks at the registry only through the set of registered
    namespaces that are dot-bounded prefixes of the name. *)
Lemma extract_same_matches m m' qn :
  (forall k, dot_prefix k qn = true ->
             (In k (PyDict.keys m) <-> In k (PyDict.keys m'))) ->
  extract m qn = extract m' qn.
Proof.
  intros Heq.
  destruct (match_or_not m qn) as [(k & Hk & Hm)|Hno].
  - destruct (extract_longest Path m qn k Hk Hm) as (r & Hr & _ & Hin & Hpre & Hmax).
    assert (Hk' : In r (PyDict.keys m')) by now apply (Heq r Hpre).
    destruct (extract_longest Path m' qn r Hk' Hpre)
      as (r' & Hr' & _ & Hin' & Hpre' & Hmax').
    rewrite Hr, Hr'. f_equal.
    apply (dot_prefix_unique r r' qn Hpre Hpre').
    apply Nat.le_antisymm.
    + now apply Hmax'.
    + apply Hmax; [|exact Hpre']. now apply (Heq r' Hpre').
  - assert (Hno' : forall k, In k (PyDict.keys m') -> dot_prefix k qn = false).
    { intros k Hk. destruct (dot_prefix k qn) eqn:E; [|reflexivity].
      rewrite <- E. apply Hno. now apply (Heq k E). }
    now rewrite (extract_fallback m qn Hno), (extract_fallback m' qn Hno').
Qed.

Lemma dotless_no_match m qn :
  String.index 0 "." qn = None ->
  forall k, In k (PyDict.keys m) -> dot_prefix k qn = false.
Proof. intros H k _. now apply no_dot_no_prefix. Qed.

End ExtractFacts.

(* ------------------------------------------------------------------ *)
(** ** Behaviour of construction, mutation and resolution *)

Section Behaviour.
Variable Path : Type.
Variable resolve : string -> Path.
Variable name : Path -> string.
Variable TARGET_REPO_PATH : string.
Variable RESOLVER_PROJECT_NOT_FOUND : string -> string -> string.
Implicit Types (m : list (string * Path)) (qn n p : string).

Local Abbreviation init :=
  (ProjectPathResolver.init Path resolve name TARGET_REPO_PATH).
Local Abbreviation extract := (ProjectPathResolver.extract_project_name Path).
Local Abbreviation get_path :=
  (ProjectPathResolver.get_project_path Path RESOLVER_PROJECT_NOT_FOUND).
Local Abbreviation resolve_fqn :=
  (ProjectPathResolver.resolve_path_from_fqn Path RESOLVER_PROJECT_NOT_FOUND).
Local Abbreviation list_projects := (ProjectPathResolver.list_projects Path).
Local Abbreviation add_project := (ProjectPathResolver.add_project Path resolve).
Local Abbreviation remove_project :=
  (ProjectPathResolver.remove_project Path RESOLVER_PROJECT_NOT_FOUND).
Local Abbreviation available m := (PyStr.join ", " (list_projects m)).

(** X1.  Built from a non-empty mapping (a dict: no name twice), the
    registry lists exactly the given names, in the order given, and
    [get_project_path] returns [Path(path).resolve()] for each entry. *)
Theorem init_stores_resolved_entries (ms : list (string * string)) :
  ms <> [] -> NoDup (map fst ms) ->
  list_projects (init (Some ms)) = map fst ms /\
  (forall k v, In (k, v) ms -> get_path (init (Some ms)) k = inr (resolve v)).
Proof.
  intros Hne Hnd.
  assert (E : init (Some ms) =
              map (fun np : string * string => (fst np, resolve (snd np))) ms).
  { simpl. destruct ms; [congruence|]. simpl PyDict.truthy. cbv iota.
    now apply load_fresh. }
  rewrite E. split.
  - apply keys_resolved.
  - intros k v Hin. apply get_path_stored. now apply get_resolved.
Qed.

(** X2.  Whatever [__init__] is given (nothing, an empty mapping, or any
    mapping), the registry it builds has at least one project. *)
Theorem init_never_empty (ms : option (list (string * string))) :
  list_projects (init ms) <> [].
Proof.
  assert (D : list_projects
                (ProjectPathResolver.default_mapping Path resolve name
                   TARGET_REPO_PATH) <> []) by discriminate.
  destruct ms as [d|]; [|exact D]. simpl.
  destruct d as [|x r]; [exact D|]. simpl PyDict.truthy. cbv iota.
  pose proof (load_not_nil Path resolve (x :: r)) as H.
  destruct (ProjectPathResolver.load Path resolve (x :: r)).
  - exfalso. apply H; [discriminate | reflexivity].
  - discriminate.
Qed.

(** X3.  No namespace is ever listed twice: this holds for the registry
    [__init__] builds from any input, and [add_project] and
    [remove_project] (failing or not) keep it. *)
Theorem namespaces_stay_unique :
  (forall ms, NoDup (list_projects (init ms))) /\
  (forall m n path,
      NoDup (list_projects m) -> NoDup (list_projects (add_project m n path))) /\
  (forall m n,
      NoDup (list_projects m) -> NoDup (list_projects (snd (remove_project m n)))).
Proof.
  split; [|split].
  - intros ms. apply init_wf.
  - intros m n path. apply add_project_wf.
  - intros m n. apply remove_project_wf.
Qed.

(** X4.  [add_project] on a name that is already registered overwrites its
    root and leaves the list of projects, and so its length and order, as
    it was. *)
Theorem add_existing_overwrites m n path :
  In n (list_projects m) ->
  list_projects (add_project m n path) = list_projects m /\
  get_path (add_project m n path) n = inr (resolve path).
Proof.
  intros H. split.
  - unfold ProjectPathResolver.list_projects, ProjectPathResolver.add_project.
    rewrite keys_set. now rewrite (proj2 (contains_In m n) H).
  - apply get_path_stored. apply get_set_same.
Qed.

(** X5.  [add_project] on a name that is not registered puts the new entry
    last: the registry is the old one followed by the new entry. *)
Theorem add_new_appends m n path :
  ~ In n (list_projects m) ->
  add_project m n path = (m ++ [(n, resolve path)])%list /\
  list_projects (add_project m n path) = (list_projects m ++ [n])%list.
Proof.
  intros H. unfold ProjectPathResolver.add_project.
  rewrite (set_new m n (resolve path) H). split; [reflexivity|].
  unfold ProjectPathResolver.list_projects, PyDict.keys.
  now rewrite map_app.
Qed.

(** X6.  [add_project n] does not touch the other projects: every other
    name keeps its stored root, and [get_project_path] on another
    registered name returns what it returned before. *)
Theorem add_preserves_others m n path n' :
  n' <> n ->
  PyDict.get (add_project m n path) n' = PyDict.get m n' /\
  (In n' (list_projects m) ->
   get_path (add_project m n path) n' = get_path m n').
Proof.
  intros Hne.
  assert (E : PyDict.get (add_project m n path) n' = PyDict.get m n')
    by now apply get_set_other.
  split; [exact E|]. intros Hin.
  destruct (get_path_registered Path RESOLVER_PROJECT_NOT_FOUND m n' Hin)
    as (v & Hv & Hg).
  rewrite Hg. apply get_path_stored. now rewrite E.
Qed.

(** X7.  [remove_project] on a registered name succeeds; afterwards the
    name is gone, the other names are listed in their former order with
    their former roots, and [get_project_path] on the removed name raises
    the not-found [KeyError]. *)
Theorem remove_present m n :
  NoDup (list_projects m) -> In n (list_projects m) ->
  exists m',
    remove_project m n = (inr tt, m') /\
    list_projects m' =
      filter (fun x => negb (String.eqb x n)) (list_projects m) /\
    ~ In n (list_projects m') /\
    (forall n', n' <> n -> PyDict.get m' n' = PyDict.get m n') /\
    get_path m' n =
      inl (KeyError (RESOLVER_PROJECT_NOT_FOUND n (available m'))).
Proof.
  intros Hnd Hin. exists (PyDict.del m n).
  assert (Hgone : ~ In n (list_projects (PyDict.del m n)))
    by now apply del_removes.
  split.
  - unfold ProjectPathResolver.remove_project.
    now rewrite (proj2 (contains_In m n) Hin).
  - split; [now apply keys_del|]. split; [exact Hgone|]. split.
    + intros n' Hne. now apply get_del_other.
    + now apply get_path_absent.
Qed.

(** X8.  Adding a project under a name that was not registered and then
    removing it gives back the registry as it was. *)
Theorem add_then_remove m n path :
  ~ In n (list_projects m) ->
  remove_project (add_project m n path) n = (inr tt, m).
Proof.
  intros H. unfold ProjectPathResolver.remove_project,
    ProjectPathResolver.add_project.
  assert (Hin : In n (PyDict.keys (PyDict.set m n (resolve path)))).
  { apply In_keys_set. now left. }
  rewrite (proj2 (contains_In _ n) Hin). simpl.
  now rewrite del_set_new.
Qed.

(** X9.  [extract_project_name] depends only on which namespaces are
    registered, not on the order they were inserted in nor on their
    roots. *)
Theorem extract_order_independent m m' qn :
  (forall k, In k (list_projects m) <-> In k (list_projects m')) ->
  extract m qn = extract m' qn.
Proof.
  intros H. apply extract_same_matches. intros k _. apply H.
Qed.

(** X10.  The string [extract_project_name] returns is always a prefix of
    the qualified name.  It is either a registered namespace followed by a
    dot in the name, or, when no registered namespace matches, a string
    without a dot. *)
Theorem extract_result_shape m qn r :
  extract m qn = inr r ->
  PyStr.startswith qn r = true /\
  ((In r (list_projects m) /\ PyStr.startswith qn (r ++ ".") = true) \/
   ((forall k, In k (list_projects m) ->
               PyStr.startswith qn (k ++ ".") = false) /\
    String.index 0 "." r = None)).
Proof.
  intros Hr.
  destruct (match_or_not Path m qn) as [(k & Hk & Hm)|Hno].
  - destruct (extract_longest Path m qn k Hk Hm) as (r' & Hr' & _ & Hin & Hpre & _).
    rewrite Hr in Hr'. inversion Hr'; subst r'.
    split; [now apply dot_prefix_is_prefix | left; auto].
  - rewrite (extract_fallback Path m qn Hno) in Hr. inversion Hr; subst r.
    split; [apply before_is_prefix|]. right. split; [exact Hno|].
    apply before_no_dot.
Qed.

(** X11.  For a qualified name without a dot nothing is matched: the name
    itself is the extracted namespace, and [resolve_path_from_fqn] is
    [get_project_path] on the name. *)
Theorem dotless_name_is_its_own_namespace m qn :
  String.index 0 "." qn = None ->
  ProjectPathResolver.extract_project_name Path m qn = inr qn /\
  ProjectPathResolver.resolve_path_from_fqn Path RESOLVER_PROJECT_NOT_FOUND m qn
  = ProjectPathResolver.get_project_path Path RESOLVER_PROJECT_NOT_FOUND m qn.
Proof.
  intros H.
  assert (E : extract m qn = inr qn).
  { rewrite (extract_no_match Path m qn (dotless_no_match Path m qn H)).
    unfold first_segment_spec. now rewrite H. }
  split; [exact E|].
  unfold ProjectPathResolver.resolve_path_from_fqn. now rewrite E.
Qed.

(** X12.  For a qualified name that contains a dot,
    [resolve_path_from_fqn] returns a root exactly when some registered
    namespace followed by a dot is a prefix of the name; the first-segment
    fallback never resolves. *)
Theorem dotted_name_resolves_iff_matched m qn i :
  String.index 0 "." qn = Some i ->
  ((exists v, resolve_fqn m qn = inr v) <->
   (exists k, In k (list_projects m) /\ PyStr.startswith qn (k ++ ".") = true)).
Proof.
  intros Hi. split.
  - intros [v Hv].
    destruct (match_or_not Path m qn) as [Hyes|Hno]; [exact Hyes|].
    exfalso.
    pose proof (before_dot_prefix qn i Hi) as Hseg.
    assert (Hnin : ~ In (before "." qn) (list_projects m)).
    { intros Hin. pose proof (Hno _ Hin) as Hf. unfold dot_prefix in Hf.
      rewrite Hf in Hseg. discriminate. }
    unfold ProjectPathResolver.resolve_path_from_fqn in Hv.
    rewrite (extract_fallback Path m qn Hno) in Hv.
    rewrite (get_path_absent Path RESOLVER_PROJECT_NOT_FOUND m _ Hnin) in Hv.
    discriminate.
  - intros (k & Hk & Hm).
    destruct (extract_longest Path m qn k Hk Hm) as (r & Hr & _ & Hin & _).
    destruct (get_path_registered Path RESOLVER_PROJECT_NOT_FOUND m r Hin)
      as (v & _ & Hg).
    exists v. unfold ProjectPathResolver.resolve_path_from_fqn. now rewrite Hr.
Qed.

(** X13.  Adding or removing a project whose name followed by a dot is not
    a prefix of the qualified name does not change what
    [extract_project_name] returns for that name. *)
Theorem unrelated_change_keeps_extraction m n path qn :
  PyStr.startswith qn (n ++ ".") = false ->
  extract (add_project m n path) qn = extract m qn /\
  extract (snd (remove_project m n)) qn = extract m qn.
Proof.
  clear name TARGET_REPO_PATH. intros Hn.
  assert (Hk : forall k, dot_prefix k qn = true -> k <> n).
  { intros k Hm ->. unfold dot_prefix in Hm. congruence. }
  split.
  - apply extract_same_matches. intros k Hm.
    unfold ProjectPathResolver.add_project. rewrite In_keys_set.
    specialize (Hk k Hm). tauto.
  - apply extract_same_matches. intros k Hm.
    unfold ProjectPathResolver.remove_project.
    destruct (negb (PyDict.contains m n)); simpl; [tauto|].
    specialize (Hk k Hm). split.
    + apply In_keys_del.
    + now apply In_keys_del_other.
Qed.

(** X14.  Registering a project makes the names below it resolve to it:
    after [add_project n path], a qualified name [n.rest] extracts to [n]
    and resolves to [Path(path).resolve()], provided no longer namespace of
    the old registry is a dot-bounded prefix of that name. *)
Theorem add_then_resolve m n path rest :
  (forall k, In k (list_projects m) ->
             PyStr.startswith (n ++ "." ++ rest) (k ++ ".") = true ->
             String.length k <= String.length n) ->
  extract (add_project m n path) (n ++ "." ++ rest) = inr n /\
  resolve_fqn (add_project m n path) (n ++ "." ++ rest) = inr (resolve path).
Proof.
  intros Hmax.
  pose proof (dot_prefix_app n rest) as Hn.
  assert (Hin : In n (PyDict.keys (add_project m n path))).
  { apply In_keys_set. now left. }
  destruct (extract_longest Path _ _ n Hin Hn) as (r & Hr & _ & Hrin & Hpre & Hlen).
  assert (E : r = n).
  { apply (dot_prefix_unique r n (n ++ "." ++ rest) Hpre Hn).
    apply Nat.le_antisymm; [|now apply Hlen].
    apply In_keys_set in Hrin as [->|Hold]; [lia|].
    now apply Hmax. }
  subst r. split; [exact Hr|].
  unfold ProjectPathResolver.resolve_path_from_fqn. rewrite Hr.
  apply get_path_stored. apply get_set_same.
Qed.

(** X15.  Registering the same name twice is the same as registering it
    once with the second path. *)
Theorem add_twice_last_wins m n path1 path2 :
  add_project (add_project m n path1) n path2 = add_project m n path2.
Proof. apply set_set. Qed.

End Behaviour.

(* ------------------------------------------------------------------ *)
(** ** Tool names *)

Section ToolNamesFacts.
Variable Tool : Type.
Variable tool_name : Tool -> string.

(** In the map from tool name to tool name every value is its own key. *)
Lemma fold_tool_map_values (tools : list Tool) (acc : list (string * string)) k v :
  (forall k' v', PyDict.get acc k' = Some v' -> v' = k') ->
  PyDict.get
    (fold_left (fun a t => PyDict.set a (tool_name t) (tool_name t)) tools acc) k
  = Some v -> v = k.
Proof.
  revert acc. induction tools as [|t r IH]; intros acc Hacc; simpl.
  - apply Hacc.
  - apply IH. intros k' v'.
    destruct (string_dec k' (tool_name t)) as [->|Hne].
    + rewrite get_set_same. now intros [= <-].
    + rewrite get_set_other by exact Hne. apply Hacc.
Qed.

Lemma tool_map_get_default (tools : list Tool) k :
  PyDict.get_default (Prompts.tool_map Tool tool_name tools) k k = k.
Proof.
  unfold PyDict.get_default.
  destruct (PyDict.get (Prompts.tool_map Tool tool_name tools) k) as [v|] eqn:E;
    [|reflexivity].
  apply (fold_tool_map_values tools [] k v); [|exact E].
  intros k' v'. discriminate.
Qed.

(** X16.  [extract_tool_names] returns the same fixed names for every list
    of tools: each field is looked up in a map from name to the same name
    and defaults to the key that is looked up. *)
Theorem extract_tool_names_constant (tools : list Tool) :
  Prompts.extract_tool_names Tool tool_name tools =
  {| Prompts.query_graph := "query_codebase_knowledge_graph";
     Prompts.read_file := "read_file_content";
     Prompts.analyze_document := "analyze_document";
     Prompts.semantic_search := "semantic_code_search";
     Prompts.create_file := "create_new_file";
     Prompts.edit_file := "replace_code_surgically";
     Prompts.shell_command := "execute_shell_command";
     Prompts.list_directory := "list_directory" |}.
Proof.
  unfold Prompts.extract_tool_names. cbv zeta.
  now rewrite !tool_map_get_default.
Qed.

End ToolNamesFacts.

(* ------------------------------------------------------------------ *)
(** ** The list of available projects in the error message *)

Section AvailableFacts.
Variable Path : Type.
Variable RESOLVER_PROJECT_NOT_FOUND : string -> string -> string.
Implicit Types (m : list (string * Path)) (n : string).

Lemma append_empty_r (s : string) : s ++ EmptyString = s.
Proof. induction s as [|c s IH]; simpl; [reflexivity | now rewrite IH]. Qed.

Lemma append_assoc (a b c : string) : (a ++ b) ++ c = a ++ b ++ c.
Proof. induction a as [|x a IH]; simpl; [reflexivity | now rewrite IH]. Qed.

(** Every element of a joined list occurs in the joined string. *)
Lemma join_contains (sep : string) (l : list string) (k : string) :
  In k l -> exists a b, PyStr.join sep l = a ++ k ++ b.
Proof.
  unfold PyStr.join.
  induction l as [|x xs IH]; [intros []|].
  intros [->|Hin].
  - exists EmptyString. destruct xs as [|y ys].
    + exists EmptyString. simpl. now rewrite append_empty_r.
    + exists (sep ++ String.concat sep (y :: ys)). reflexivity.
  - destruct xs as [|y ys]; [destruct Hin|].
    destruct (IH Hin) as (a & b & E).
    exists (x ++ sep ++ a), b.
    change (String.concat sep (x :: y :: ys))
      with (x ++ sep ++ String.concat sep (y :: ys)).
    rewrite E. now rewrite !append_assoc.
Qed.

(** X17.  When [get_project_path] or [remove_project] is called with a
    name that is not registered, both raise [KeyError] with the same
    message, and the list of available projects the message is built from
    contains every registered namespace. *)
Theorem not_found_lists_every_project m n :
  ~ In n (ProjectPathResolver.list_projects Path m) ->
  exists available,
    ProjectPathResolver.get_project_path Path RESOLVER_PROJECT_NOT_FOUND m n
    = inl (KeyError (RESOLVER_PROJECT_NOT_FOUND n available)) /\
    fst (ProjectPathResolver.remove_project Path RESOLVER_PROJECT_NOT_FOUND m n)
    = inl (KeyError (RESOLVER_PROJECT_NOT_FOUND n available)) /\
    (forall k, In k (ProjectPathResolver.list_projects Path m) ->
               exists a b, available = a ++ k ++ b).
Proof.
  intros H. exists (PyStr.join ", " (PyDict.keys m)).
  split; [now apply get_path_absent|]. split.
  - unfold ProjectPathResolver.remove_project.
    now rewrite (proj2 (contains_false m n) H).
  - intros k Hk. now apply join_contains.
Qed.

End AvailableFacts.

(* ------------------------------------------------------------------ *)
(** ** The behaviour on concrete registries *)

Section BehaviourInstances.
Import Sample.

Local Abbreviation keys := (ProjectPathResolver.list_projects string).

Lemma init_stores_resolved_entries_witness :
  keys (Sample.init (Some reg_three)) = ["p1"; "p2"; "p3"] /\
  Sample.get_project_path (Sample.init (Some reg_three)) "p2" = inr "/cwd/rel/p2".
Proof.
  assert (H1 : reg_three <> []) by discriminate.
  assert (H2 : NoDup (map fst reg_three)).
  { simpl. repeat constructor; simpl; intuition discriminate. }
  destruct (init_stores_resolved_entries string Sample.resolve Sample.name
              TARGET_REPO_PATH RESOLVER_PROJECT_NOT_FOUND reg_three H1 H2)
    as [Hl Hg].
  split; [exact Hl|].
  apply (Hg "p2" "rel/p2"). simpl. auto.
Defined.

Lemma namespaces_stay_unique_witness :
  NoDup (keys reg_ab) /\
  NoDup (keys (Sample.add_project reg_ab "c" "/r/c")) /\
  NoDup (keys (snd (Sample.remove_project reg_ab "a"))).
Proof.
  assert (H : NoDup (keys reg_ab)).
  { simpl. repeat constructor; simpl; intuition discriminate. }
  destruct (namespaces_stay_unique string Sample.resolve Sample.name
              TARGET_REPO_PATH RESOLVER_PROJECT_NOT_FOUND) as (_ & Ha & Hr).
  split; [exact H|]. split.
  - exact (Ha reg_ab "c" "/r/c" H).
  - exact (Hr reg_ab "a" H).
Defined.

Lemma add_existing_overwrites_witness :
  In "a" (keys reg_ab) /\
  keys (Sample.add_project reg_ab "a" "rel/x") = keys reg_ab /\
  Sample.get_project_path (Sample.add_project reg_ab "a" "rel/x") "a"
  = inr (Sample.resolve "rel/x").
Proof.
  assert (H : In "a" (keys reg_ab)) by (simpl; auto).
  split; [exact H|].
  exact (add_existing_overwrites string Sample.resolve RESOLVER_PROJECT_NOT_FOUND
           reg_ab "a" "rel/x" H).
Defined.

Lemma add_new_appends_witness :
  ~ In "c" (keys reg_ab) /\
  Sample.add_project reg_ab "c" "/r/c" = (reg_ab ++ [("c", Sample.resolve "/r/c")])%list /\
  keys (Sample.add_project reg_ab "c" "/r/c") = (keys reg_ab ++ ["c"])%list.
Proof.
  assert (H : ~ In "c" (keys reg_ab)).
  { simpl. intros [H|[H|[]]]; discriminate. }
  split; [exact H|].
  exact (add_new_appends string Sample.resolve reg_ab "c" "/r/c" H).
Defined.

Lemma add_preserves_others_witness :
  "a.b" <> "a" /\ In "a.b" (keys reg_ab) /\
  Sample.get_project_path (Sample.add_project reg_ab "a" "rel/x") "a.b"
  = Sample.get_project_path reg_ab "a.b".
Proof.
  assert (H1 : "a.b" <> "a") by discriminate.
  assert (H2 : In "a.b" (keys reg_ab)) by (simpl; auto).
  split; [exact H1|]. split; [exact H2|].
  exact (proj2 (add_preserves_others string Sample.resolve
                  RESOLVER_PROJECT_NOT_FOUND reg_ab "a" "rel/x" "a.b" H1) H2).
Defined.

Lemma remove_present_witness :
  NoDup (keys reg_ab) /\ In "a" (keys reg_ab) /\
  exists m',
    Sample.remove_project reg_ab "a" = (inr tt, m') /\
    keys m' = filter (fun x => negb (String.eqb x "a")) (keys reg_ab) /\
    ~ In "a" (keys m').
Proof.
  assert (H1 : NoDup (keys reg_ab)).
  { simpl. repeat constructor; simpl; intuition discriminate. }
  assert (H2 : In "a" (keys reg_ab)) by (simpl; auto).
  split; [exact H1|]. split; [exact H2|].
  destruct (remove_present string RESOLVER_PROJECT_NOT_FOUND reg_ab "a" H1 H2)
    as (m' & Hr & Hl & Hn & _).
  exists m'. auto.
Defined.

Lemma add_then_remove_witness :
  ~ In "c" (keys reg_ab) /\
  Sample.remove_project (Sample.add_project reg_ab "c" "/r/c") "c" = (inr tt, reg_ab).
Proof.
  assert (H : ~ In "c" (keys reg_ab)).
  { simpl. intros [H|[H|[]]]; discriminate. }
  split; [exact H|].
  exact (add_then_remove string Sample.resolve RESOLVER_PROJECT_NOT_FOUND
           reg_ab "c" "/r/c" H).
Defined.

Lemma extract_order_independent_witness :
  Sample.extract_project_name reg_ab "a.b.x" =
  Sample.extract_project_name [("a.b", "/other"); ("a", "/r/a")] "a.b.x".
Proof.
  apply (extract_order_independent string reg_ab
           [("a.b", "/other"); ("a", "/r/a")] "a.b.x").
  intros k. simpl. tauto.
Defined.

Lemma extract_result_shape_witness :
  Sample.extract_project_name reg_project "project.sub.module.func"
  = inr "project.sub" /\
  PyStr.startswith "project.sub.module.func" "project.sub" = true.
Proof.
  assert (H : Sample.extract_project_name reg_project "project.sub.module.func"
              = inr "project.sub") by reflexivity.
  split; [exact H|].
  exact (proj1 (extract_result_shape string reg_project
                  "project.sub.module.func" "project.sub" H)).
Defined.

Lemma dotless_name_is_its_own_namespace_witness :
  String.index 0 "." "other" = None /\
  Sample.extract_project_name reg_other "other" = inr "other" /\
  Sample.resolve_path_from_fqn reg_other "other"
  = Sample.get_project_path reg_other "other".
Proof.
  assert (H : String.index 0 "." "other" = None) by reflexivity.
  split; [exact H|].
  exact (dotless_name_is_its_own_namespace string RESOLVER_PROJECT_NOT_FOUND
           reg_other "other" H).
Defined.

Lemma dotted_name_resolves_iff_matched_witness :
  String.index 0 "." "project.module.func" = Some 7 /\
  exists v, Sample.resolve_path_from_fqn reg_project "project.module.func" = inr v.
Proof.
  assert (H : String.index 0 "." "project.module.func" = Some 7) by reflexivity.
  split; [exact H|].
  apply (proj2 (dotted_name_resolves_iff_matched string RESOLVER_PROJECT_NOT_FOUND
                  reg_project "project.module.func" 7 H)).
  exists "project". split; [simpl; auto | reflexivity].
Defined.

Lemma unrelated_change_keeps_extraction_witness :
  PyStr.startswith "a.b.x" ("zz" ++ ".") = false /\
  Sample.extract_project_name (Sample.add_project reg_ab "zz" "/r/zz") "a.b.x"
  = Sample.extract_project_name reg_ab "a.b.x" /\
  Sample.extract_project_name (snd (Sample.remove_project reg_ab "zz")) "a.b.x"
  = Sample.extract_project_name reg_ab "a.b.x".
Proof.
  assert (H : PyStr.startswith "a.b.x" ("zz" ++ ".") = false) by reflexivity.
  split; [exact H|].
  exact (unrelated_change_keeps_extraction string Sample.resolve
           RESOLVER_PROJECT_NOT_FOUND reg_ab "zz" "/r/zz" "a.b.x" H).
Defined.

Lemma add_then_resolve_witness :
  Sample.extract_project_name (Sample.add_project reg_ab "a.b.c" "rel/abc")
    ("a.b.c" ++ "." ++ "mod.f") = inr "a.b.c" /\
  Sample.resolve_path_from_fqn (Sample.add_project reg_ab "a.b.c" "rel/abc")
    ("a.b.c" ++ "." ++ "mod.f") = inr (Sample.resolve "rel/abc").
Proof.
  apply (add_then_resolve string Sample.resolve RESOLVER_PROJECT_NOT_FOUND
           reg_ab "a.b.c" "rel/abc" "mod.f").
  intros k [<-|[<-|[]]] _; simpl; lia.
Defined.

Lemma not_found_lists_every_project_witness :
  ~ In "zz" (keys reg_ab) /\
  exists available,
    Sample.get_project_path reg_ab "zz"
    = inl (KeyError (RESOLVER_PROJECT_NOT_FOUND "zz" available)) /\
    (forall k, In k (keys reg_ab) -> exists a b, available = a ++ k ++ b).
Proof.
  assert (H : ~ In "zz" (keys reg_ab)).
  { simpl. intros [H|[H|[]]]; discriminate. }
  split; [exact H|].
  destruct (not_found_lists_every_project string RESOLVER_PROJECT_NOT_FOUND
              reg_ab "zz" H) as (av & Hg & _ & Hall).
  exists av. auto.
Defined.

End BehaviourInstances.
